(** * Background-removal and 3D-conversion endpoints

    A shallow embedding of the three request handlers of the repository:

    - [RemoveBg]      : [api/remove_bg.py], the serverless handler;
    - [ImagesToGlb]   : [api/images_to_glb.py], the placeholder handler;
    - [LocalBgServer] : [local_bg_server.py], the Flask mirror.

    Python values are the values [json.loads] can produce.  A handler is a
    computation that records, in order, every call that leaves it (reads of
    the request stream, library calls, prints, writes to the response) and
    that either returns or raises.  The libraries the handlers call
    ([json], [base64], PIL, [rembg], Flask's request parsing, the [int]
    conversion of a string) are not part of the repository: they are the
    fields of the class [PyLibs], and every theorem holds for every
    implementation of them. *)

From Stdlib Require Import ZArith QArith Ascii String List Bool Lia.
From Stdlib.Strings Require Import Byte.
From stdpp Require Import gmap strings list pretty.

Local Set Warnings "-register-all".
Local Open Scope string_scope.
Local Open Scope list_scope.
Local Open Scope Z_scope.

(** ** Python values *)

Definition bytes := list byte.

(** What [json.loads] returns: [None], [bool], [int], [float], [str],
    [list], [dict] with [str] keys. *)
Inductive json : Type :=
| JNull
| JBool (b : bool)
| JInt (n : Z)
| JFloat (q : Q)
| JStr (s : string)
| JArr (l : list json)
| JObj (m : gmap string json).

(** Python's name of the type of a value, as error messages print it. *)
Definition type_name (v : json) : string :=
  match v with
  | JNull => "NoneType"
  | JBool _ => "bool"
  | JInt _ => "int"
  | JFloat _ => "float"
  | JStr _ => "str"
  | JArr _ => "list"
  | JObj _ => "dict"
  end.

(** An exception: its class and what [str(e)] gives.  The wording of the
    interpreter's own messages follows CPython 3.12; no theorem below
    depends on it. *)
Record exn := Exn { exn_class : string; exn_str : string }.

Definition TypeError (msg : string) : exn := Exn "TypeError" msg.
Definition AttributeError (msg : string) : exn := Exn "AttributeError" msg.
Definition IndexError (msg : string) : exn := Exn "IndexError" msg.
Definition KeyError (msg : string) : exn := Exn "KeyError" msg.
Definition ValueError (msg : string) : exn := Exn "ValueError" msg.
Definition NameError (msg : string) : exn := Exn "NameError" msg.

Definition quoted (s : string) : string := "'" +:+ s +:+ "'".

(** ** Strings *)

Definition comma : ascii := ","%char.

(** [sub in s] for two [str]: [sub] occurs in [s]. *)
Fixpoint str_contains (sub s : string) : bool :=
  String.prefix sub s ||
  match s with
  | EmptyString => false
  | String _ s' => str_contains sub s'
  end.

(** [s.split(sep)] for a one-character separator: the fields between the
    separators, empty fields included; never the empty list. *)
Fixpoint str_split (sep : ascii) (s : string) : list string :=
  match s with
  | EmptyString => [EmptyString]
  | String c s' =>
      if Ascii.eqb c sep then EmptyString :: str_split sep s'
      else match str_split sep s' with
           | [] => [String c EmptyString]
           | field :: fields => String c field :: fields
           end
  end.

(** ** Operators on values *)

(** [needle in container] for a [str] needle: key membership for a [dict],
    element membership for a [list], substring for a [str], [TypeError]
    for everything else. *)
Definition py_in (needle : string) (container : json) : exn + bool :=
  match container with
  | JObj m =>
      inr match m !! needle with
          | Some _ => true
          | None => false
          end
  | JArr l =>
      inr (existsb (fun x => match x with
                             | JStr s => String.eqb s needle
                             | _ => false
                             end) l)
  | JStr s => inr (str_contains needle s)
  | other =>
      inl (TypeError ("argument of type " +:+ quoted (type_name other)
                      +:+ " is not iterable"))
  end.

(** [needle not in container]. *)
Definition py_not_in (needle : string) (container : json) : exn + bool :=
  match py_in needle container with
  | inl e => inl e
  | inr b => inr (negb b)
  end.

(** [container[key]] for a [str] key. *)
Definition py_getitem (container : json) (key : string) : exn + json :=
  match container with
  | JObj m =>
      match m !! key with
      | Some v => inr v
      | None => inl (KeyError (quoted key))
      end
  | JArr _ => inl (TypeError "list indices must be integers or slices, not str")
  | JStr _ => inl (TypeError "string indices must be integers, not 'str'")
  | other =>
      inl (TypeError (quoted (type_name other) +:+ " object is not subscriptable"))
  end.

(** [v.split(',')]: only a [str] has the method. *)
Definition py_split (v : json) (sep : ascii) : exn + list string :=
  match v with
  | JStr s => inr (str_split sep s)
  | other =>
      inl (AttributeError (quoted (type_name other)
                           +:+ " object has no attribute 'split'"))
  end.

(** [fields[i]] on a list of strings. *)
Definition py_index (fields : list string) (i : nat) : exn + json :=
  match fields !! i with
  | Some s => inr (JStr s)
  | None => inl (IndexError "list index out of range")
  end.

(** ** Requests *)

(** An HTTP request as both servers see it: the method, the header lines,
    and the bytes that can still be read from the connection. *)
Record request := Request {
  command : string;
  headers : list (string * string);
  rfile : bytes
}.

Definition ascii_lower (c : ascii) : ascii :=
  let n := nat_of_ascii c in
  if (65 <=? n)%nat && (n <=? 90)%nat then ascii_of_nat (n + 32) else c.

Fixpoint str_lower (s : string) : string :=
  match s with
  | EmptyString => EmptyString
  | String c s' => String (ascii_lower c) (str_lower s')
  end.

(** [self.headers[name]]: the value of the first header line with that
    name, compared without case; [None] when there is none. *)
Definition headers_get (h : list (string * string)) (name : string)
  : option string :=
  match List.find (fun kv => String.eqb (str_lower (fst kv)) (str_lower name)) h with
  | Some kv => Some (snd kv)
  | None => None
  end.

(** [self.rfile.read(n)] on a buffered reader: at most [n] bytes, all the
    bytes for [-1], [ValueError] below [-1]. *)
Definition rfile_read (r : request) (n : Z) : exn + bytes :=
  if n <? -1 then inl (ValueError "read length must be non-negative or -1")
  else if n =? -1 then inr (rfile r)
  else inr (take (Z.to_nat n) (rfile r)).

(** ** Libraries *)

(** The library functions the handlers call, over the library's type of
    decoded images.  Each one that can raise returns [exn + _]. *)
Class PyLibs (image : Type) := {
  (** [int(s)] for a [str] *)
  int_of_str : string -> exn + Z;
  (** [json.loads(body)] *)
  json_loads : bytes -> exn + json;
  (** [base64.b64decode(s)] for a [str] *)
  b64decode : string -> exn + bytes;
  (** [base64.b64encode(b).decode('utf-8')] *)
  b64encode : bytes -> string;
  (** [Image.open(BytesIO(b))] *)
  Image_open : bytes -> exn + image;
  (** [img.save(buffer, format='PNG')] followed by [buffer.getvalue()] *)
  save_png : image -> exn + bytes;
  (** [str(img.size)] and [img.mode] *)
  image_size : image -> string;
  image_mode : image -> string;
  (** [traceback.format_exc()] while [e] is being handled *)
  format_exc : exn -> string;
  (** Flask's [request.get_json()] *)
  get_json : request -> exn + json
}.

(** The background-removal capability, [rembg.remove]. *)
Definition capability (image : Type) : Type := image -> exn + image.

(** ** Traced computations *)

(** The calls that leave a handler. *)
Inductive event {image : Type} : Type :=
| EvRead (n : Z)                     (* self.rfile.read(n) *)
| EvGetJson                          (* request.get_json() *)
| EvJsonLoads (body : bytes)         (* json.loads(body) *)
| EvB64Decode (arg : json)           (* base64.b64decode(arg) *)
| EvImageOpen (b : bytes)            (* Image.open(BytesIO(b)) *)
| EvRemove (img : image)             (* remove(img) *)
| EvSavePng (img : image)            (* img.save(buf, format='PNG') *)
| EvB64Encode (b : bytes)            (* base64.b64encode(b) *)
| EvPrint (line : string)            (* print(line) *)
| EvPrintExc (e : exn)               (* traceback.print_exc() *)
| EvSendResponse (code : Z)          (* self.send_response(code) *)
| EvSendHeader (keyword value : string) (* self.send_header(keyword, value) *)
| EvEndHeaders                       (* self.end_headers() *)
| EvWrite (data : json).             (* self.wfile.write(json.dumps(data).encode('utf-8')) *)
Arguments event : clear implicits.

(** A computation: the calls it made, and its result or the exception it
    raised. *)
Definition M (image A : Type) : Type := list (event image) * (exn + A).

Section Monad.
Context {image : Type}.

Definition ret {A} (a : A) : M image A := ([], inr a).

Definition raise {A} (e : exn) : M image A := ([], inl e).

Definition bind {A B} (m : M image A) (k : A -> M image B) : M image B :=
  match snd m with
  | inl e => (fst m, inl e)
  | inr a => (fst m ++ fst (k a), snd (k a))
  end.

(** A call that is not recorded (an operator of the language). *)
Definition lift {A} (r : exn + A) : M image A := ([], r).

(** A recorded call with its outcome. *)
Definition call {A} (ev : event image) (r : exn + A) : M image A := ([ev], r).

Definition emit (ev : event image) : M image unit := call ev (inr tt).

(** [try: m except Exception as e: h e] *)
Definition try_except {A} (m : M image A) (h : exn -> M image A) : M image A :=
  match snd m with
  | inl e => (fst m ++ fst (h e), snd (h e))
  | inr a => (fst m, inr a)
  end.

Definition trace {A} (m : M image A) : list (event image) := fst m.
Definition result {A} (m : M image A) : exn + A := snd m.

(** [m] run after the calls [t] have been made. *)
Definition after {A} (t : list (event image)) (m : M image A) : M image A :=
  (t ++ trace m, result m).
End Monad.

Declare Scope py_scope.
Delimit Scope py_scope with py.
Notation "x <- m ;; k" := (bind m (fun x => k))
  (at level 100, m at next level, right associativity) : py_scope.
Notation "m ;;; k" := (bind m (fun _ => k))
  (at level 100, right associativity) : py_scope.
Local Open Scope py_scope.

(** ** What a trace says about the response *)

Section Observations.
Context {image : Type}.

(** The status line: the code of the first [send_response]. *)
Fixpoint status_of (t : list (event image)) : option Z :=
  match t with
  | [] => None
  | EvSendResponse code :: _ => Some code
  | _ :: t' => status_of t'
  end.

(** The header lines sent before the headers end. *)
Fixpoint headers_of (t : list (event image)) : list (string * string) :=
  match t with
  | [] => []
  | EvEndHeaders :: _ => []
  | EvSendHeader k v :: t' => (k, v) :: headers_of t'
  | _ :: t' => headers_of t'
  end.

(** The values written to the body, in order. *)
Fixpoint body_of (t : list (event image)) : list json :=
  match t with
  | [] => []
  | EvWrite data :: t' => data :: body_of t'
  | _ :: t' => body_of t'
  end.

(** The event touches the response. *)
Definition is_response_event (ev : event image) : bool :=
  match ev with
  | EvSendResponse _ | EvSendHeader _ _ | EvEndHeaders | EvWrite _ => true
  | _ => false
  end.

(** The event reads the request stream. *)
Definition is_read_event (ev : event image) : bool :=
  match ev with
  | EvRead _ | EvGetJson => true
  | _ => false
  end.

(** The event is a step of the image processing: decoding, opening,
    background removal, saving, encoding. *)
Definition is_processing_event (ev : event image) : bool :=
  match ev with
  | EvB64Decode _ | EvImageOpen _ | EvRemove _ | EvSavePng _ | EvB64Encode _ => true
  | _ => false
  end.

(** The event is a call of the background-removal capability. *)
Definition is_remove_event (ev : event image) : bool :=
  match ev with
  | EvRemove _ => true
  | _ => false
  end.

(** None of the calls touches the response. *)
Definition quiet (t : list (event image)) : Prop :=
  forallb (fun ev => negb (is_response_event ev)) t = true.

(** None of the calls is one that [p] selects. *)
Definition without (p : event image -> bool) (t : list (event image)) : Prop :=
  existsb p t = false.

(** The arguments [base64.b64decode] was called with, in order. *)
Fixpoint decoded_of (t : list (event image)) : list json :=
  match t with
  | [] => []
  | EvB64Decode arg :: t' => arg :: decoded_of t'
  | _ :: t' => decoded_of t'
  end.

(** The images the capability was called on, in order. *)
Fixpoint removed_of (t : list (event image)) : list image :=
  match t with
  | [] => []
  | EvRemove img :: t' => img :: removed_of t'
  | _ :: t' => removed_of t'
  end.

(** The byte strings [Image.open] was called on, in order. *)
Fixpoint opened_of (t : list (event image)) : list bytes :=
  match t with
  | [] => []
  | EvImageOpen b :: t' => b :: opened_of t'
  | _ :: t' => opened_of t'
  end.

(** The lengths [rfile.read] was called with, in order. *)
Fixpoint reads_of (t : list (event image)) : list Z :=
  match t with
  | [] => []
  | EvRead n :: t' => n :: reads_of t'
  | _ :: t' => reads_of t'
  end.

(** A handler of [BaseHTTPRequestHandler] has answered with status [code]
    and the JSON body [data]. *)
Definition serverless_reply (m : M image unit) (code : Z) (data : json) : Prop :=
  status_of (trace m) = Some code /\ body_of (trace m) = [data].
End Observations.

(** [data[key]] of a response body, when it has the key. *)
Definition field (key : string) (data : json) : option json :=
  match data with
  | JObj m => m !! key
  | _ => None
  end.

(** The three headers every response has to carry. *)
Definition cors_headers : list (string * string) :=
  [ ("Access-Control-Allow-Origin", "*");
    ("Access-Control-Allow-Methods", "POST, OPTIONS");
    ("Access-Control-Allow-Headers", "Content-Type") ].

(** ** Calls shared by the handlers *)

Definition nl : string := String (ascii_of_nat 10) EmptyString.

(** A [dict] literal. *)
Definition dict (items : list (string * json)) : json :=
  JObj (list_to_map items).

Section Calls.
Context {image : Type} `{!PyLibs image}.

(** [int(v)] where [v] is a header value or [None]. *)
Definition py_int (v : option string) : exn + Z :=
  match v with
  | None =>
      inl (TypeError ("int() argument must be a string, a bytes-like object "
                      +:+ "or a real number, not 'NoneType'"))
  | Some s => int_of_str s
  end.

(** [base64.b64decode(arg)]: a value that is no [str] (and, coming from
    JSON, no bytes either) is refused with [TypeError]. *)
Definition py_b64decode (arg : json) : M image bytes :=
  call (EvB64Decode arg)
    match arg with
    | JStr s => b64decode s
    | other =>
        inl (TypeError ("argument should be a bytes-like object or ASCII string, not "
                        +:+ quoted (type_name other)))
    end.

Definition py_b64encode (b : bytes) : M image string :=
  call (EvB64Encode b) (inr (b64encode b)).

Definition py_Image_open (b : bytes) : M image image :=
  call (EvImageOpen b) (Image_open b).

Definition py_save_png (img : image) : M image bytes :=
  call (EvSavePng img) (save_png img).

Definition py_read (req : request) (n : Z) : M image bytes :=
  call (EvRead n) (rfile_read req n).

Definition py_json_loads (body : bytes) : M image json :=
  call (EvJsonLoads body) (json_loads body).

Definition print (line : string) : M image unit := emit (EvPrint line).

(** The first lines of both [do_POST] on their own (29-34 of
    [remove_bg.py], 16-18 of [images_to_glb.py]): the request body as a
    serverless handler obtains it. *)
Definition read_json_body (req : request) : M image json :=
  content_length <- lift (py_int (headers_get (headers req) "Content-Length"));;
  body <- py_read req content_length;;
  py_json_loads body.

End Calls.

(** ** Two runs

    An instance of [PyLibs] describes the libraries during one run of a
    handler.  Two runs, of the two servers or of one server on two
    requests, are two instances: a call that raises in both need not
    raise with the same text ([Image.open] puts the address of the buffer
    it was given into its message). *)




(** ** [api/remove_bg.py] *)

Module RemoveBg.
Section Handler.
Context {image : Type} `{!PyLibs image}.

(** The module's state after its imports: [Some remove] when
    [from rembg import remove] succeeded, [None] when it raised
    [ImportError]. *)
Variable rembg : option (capability image).

Definition REMBG_AVAILABLE : bool :=
  match rembg with
  | Some _ => true
  | None => false
  end.

(** The name [remove]: bound only when the import succeeded. *)
Definition remove (img : image) : M image image :=
  match rembg with
  | Some f => call (EvRemove img) (f img)
  | None => raise (NameError "name 'remove' is not defined")
  end.

Definition _send_cors_headers : M image unit :=
  emit (EvSendHeader "Access-Control-Allow-Origin" "*");;;
  emit (EvSendHeader "Access-Control-Allow-Methods" "POST, OPTIONS");;;
  emit (EvSendHeader "Access-Control-Allow-Headers" "Content-Type").

Definition _send_response (status_code : Z) (data : json) : M image unit :=
  emit (EvSendResponse status_code);;;
  _send_cors_headers;;;
  emit (EvSendHeader "Content-Type" "application/json");;;
  emit EvEndHeaders;;;
  emit (EvWrite data).

Definition _send_error (status_code : Z) (message : string) : M image unit :=
  _send_response status_code
    (dict [("success", JBool false); ("error", JStr message)]).

Definition do_POST (req : request) : M image unit :=
  try_except
    (if negb REMBG_AVAILABLE then
       _send_error 500 "rembg package not available"
     else
       content_length <- lift (py_int (headers_get (headers req) "Content-Length"));;
       body <- py_read req content_length;;
       data <- py_json_loads body;;
       missing <- lift (py_not_in "imageData" data);;
       if (missing : bool) then
         _send_error 400 "Missing imageData in request"
       else
         image_data <- lift (py_getitem data "imageData");;
         has_comma <- lift (py_in "," image_data);;
         image_data <- (if (has_comma : bool) then
                          fields <- lift (py_split image_data comma);;
                          lift (py_index fields 1)
                        else ret image_data);;
         image_bytes <- py_b64decode image_data;;
         input_image <- py_Image_open image_bytes;;
         output_image <- remove input_image;;
         output_bytes <- py_save_png output_image;;
         output_base64 <- py_b64encode output_bytes;;
         _send_response 200
           (dict [("success", JBool true);
                  ("processedImageData",
                   JStr ("data:image/png;base64," +:+ output_base64));
                  ("message", JStr "Background removed successfully")]))
    (fun e =>
       let error_msg := exn_str e in
       let traceback_str := format_exc e in
       print ("Error: " +:+ error_msg +:+ nl +:+ traceback_str);;;
       _send_error 500 ("Processing failed: " +:+ error_msg)).

Definition do_OPTIONS (req : request) : M image unit :=
  _send_cors_headers;;;
  emit EvEndHeaders.

End Handler.
End RemoveBg.

(** ** [api/images_to_glb.py] *)

Module ImagesToGlb.
Section Handler.
Context {image : Type} `{!PyLibs image}.

Definition _send_cors_headers : M image unit :=
  emit (EvSendHeader "Access-Control-Allow-Origin" "*");;;
  emit (EvSendHeader "Access-Control-Allow-Methods" "POST, OPTIONS");;;
  emit (EvSendHeader "Access-Control-Allow-Headers" "Content-Type").

Definition _send_response (status_code : Z) (data : json) : M image unit :=
  emit (EvSendResponse status_code);;;
  _send_cors_headers;;;
  emit (EvSendHeader "Content-Type" "application/json");;;
  emit EvEndHeaders;;;
  emit (EvWrite data).

Definition _send_error (status_code : Z) (message : string) : M image unit :=
  _send_response status_code
    (dict [("success", JBool false); ("error", JStr message)]).

Definition do_POST (req : request) : M image unit :=
  try_except
    (content_length <- lift (py_int (headers_get (headers req) "Content-Length"));;
     body <- py_read req content_length;;
     data <- py_json_loads body;;
     _send_response 501
       (dict [("success", JBool false);
              ("error", JStr "Not implemented");
              ("message",
               JStr "TRELLIS integration coming soon. Use direct GLB upload for now.")]))
    (fun e => _send_error 500 (exn_str e)).

Definition do_OPTIONS (req : request) : M image unit :=
  _send_cors_headers;;;
  emit EvEndHeaders.
End Handler.
End ImagesToGlb.

(** ** [local_bg_server.py] *)

Module LocalBgServer.

(** What a Flask view returns: a body, alone or with a status. *)
Inductive flask_body :=
| Text (s : string)
| Jsonify (data : json).

Inductive flask_return :=
| Body (b : flask_body)
| BodyStatus (b : flask_body) (status : Z).

(** Flask answers a bare body with status 200. *)
Definition status_code (r : flask_return) : Z :=
  match r with
  | Body _ => 200
  | BodyStatus _ status => status
  end.

Definition body (r : flask_return) : flask_body :=
  match r with
  | Body b => b
  | BodyStatus b _ => b
  end.

Section Handler.
Context {image : Type} `{!PyLibs image}.

(** [from rembg import remove] is unconditional here: the module only
    loads with the capability. *)
Variable remove_capability : capability image.

Definition remove (img : image) : M image image :=
  call (EvRemove img) (remove_capability img).

Definition remove_background (req : request) : M image flask_return :=
  if String.eqb (command req) "OPTIONS" then
    ret (BodyStatus (Text "") 200)
  else
    try_except
      (data <- call EvGetJson (get_json req);;
       missing <- lift (py_not_in "imageData" data);;
       if (missing : bool) then
         ret (BodyStatus
                (Jsonify (dict [("success", JBool false);
                                ("error", JStr "Missing imageData in request")]))
                400)
       else
         image_data <- lift (py_getitem data "imageData");;
         has_comma <- lift (py_in "," image_data);;
         image_data <- (if (has_comma : bool) then
                          fields <- lift (py_split image_data comma);;
                          lift (py_index fields 1)
                        else ret image_data);;
         image_bytes <- py_b64decode image_data;;
         input_image <- py_Image_open image_bytes;;
         print ("Processing image: " +:+ image_size input_image
                +:+ ", mode: " +:+ image_mode input_image);;;
         output_image <- remove input_image;;
         print "Background removed successfully";;;
         output_bytes <- py_save_png output_image;;
         output_base64 <- py_b64encode output_bytes;;
         ret (Body
                (Jsonify (dict [("success", JBool true);
                                ("processedImageData",
                                 JStr ("data:image/png;base64," +:+ output_base64));
                                ("message", JStr "Background removed successfully")]))))
      (fun e =>
         print ("Error: " +:+ exn_str e);;;
         emit (EvPrintExc e);;;
         ret (BodyStatus
                (Jsonify (dict [("success", JBool false);
                                ("error", JStr ("Processing failed: " +:+ exn_str e))]))
                500)).

Definition health : flask_return :=
  Body (Jsonify (dict [("status", JStr "ok");
                       ("message", JStr "Background removal server is running")])).
End Handler.

(** The status the view has returned, when it has returned. *)
Definition returned_status {image : Type} (m : M image flask_return) : option Z :=
  match result m with
  | inr r => Some (status_code r)
  | inl _ => None
  end.

(** The view has returned the JSON body [data] with status [code]. *)
Definition flask_reply {image : Type} (m : M image flask_return)
    (code : Z) (data : json) : Prop :=
  exists r, result m = inr r /\ status_code r = code /\ body r = Jsonify data.
End LocalBgServer.

(** ** The part of a payload that is decoded *)

(** Lines 44-46 of [do_POST] and 38-39 of [remove_background] on a [str]:
    with a comma in it, the payload is replaced by [split(',')[1]], the
    field between the first comma and the next one (or the end). *)
Definition data_part (image_data : string) : string :=
  if str_contains "," image_data then
    match str_split comma image_data !! 1%nat with
    | Some field => field
    | None => image_data
    end
  else image_data.

(** The specification's wording: everything that follows the first comma,
    and the whole string when there is no comma. *)
Fixpoint after_first_comma (s : string) : string :=
  match s with
  | EmptyString => EmptyString
  | String c s' => if Ascii.eqb c comma then s' else after_first_comma s'
  end.

Definition spec_data_part (image_data : string) : string :=
  if str_contains "," image_data then after_first_comma image_data
  else image_data.

(** The number of commas of a string. *)
Fixpoint count_commas (s : string) : nat :=
  match s with
  | EmptyString => 0%nat
  | String c s' => ((if Ascii.eqb c comma then 1 else 0) + count_commas s')%nat
  end.

(** ** A stand-in library

    A small implementation of [PyLibs] used to run the handlers on
    concrete requests.  [json_loads], [b64decode] and [int_of_str] are
    finite fragments of the real functions: on the inputs they accept
    they return what the library returns, and they refuse every other
    input.  Images, background removal and Flask's body parsing are
    stand-ins. *)

Module Fixture.

Definition dq : string := String (ascii_of_nat 34) EmptyString.

Definition to_bytes (s : string) : bytes := list_byte_of_string s.

Definition bytes_eqb (b : bytes) (s : string) : bool :=
  String.eqb (string_of_list_byte b) s.

(** A decoded picture, and the picture with its background removed. *)
Inductive picture :=
| Decoded (file : bytes)
| Cutout (p : picture).

Fixpoint file_of (p : picture) : bytes :=
  match p with
  | Decoded file => file
  | Cutout p' => file_of p'
  end.

(** The eight bytes every PNG file starts with. *)
Definition png_signature : bytes :=
  [x89; x50; x4e; x47; x0d; x0a; x1a; x0a]%byte.

Fixpoint digits_value (acc : Z) (s : string) : option Z :=
  match s with
  | EmptyString => Some acc
  | String c s' =>
      let n := nat_of_ascii c in
      if (48 <=? n)%nat && (n <=? 57)%nat
      then digits_value (10 * acc + Z.of_nat (n - 48)) s'
      else None
  end.

(** [int] on a plain decimal numeral. *)
Definition int_of_digits (s : string) : exn + Z :=
  match s with
  | EmptyString => inl (ValueError "invalid literal for int() with base 10: ''")
  | _ =>
      match digits_value 0 s with
      | Some n => inr n
      | None =>
          inl (ValueError ("invalid literal for int() with base 10: " +:+ quoted s))
      end
  end.

(** The JSON text [{"imageData": "s"}]. *)
Definition image_request (s : string) : string :=
  "{" +:+ dq +:+ "imageData" +:+ dq +:+ ": " +:+ dq +:+ s +:+ dq +:+ "}".

Definition png_payload : string := "data:image/png;base64,iVBORw0KGgo=".
Definition two_comma_payload : string := "data:image/png;base64,QUJD,REVG".

(** Some JSON texts and their values. *)
Definition json_table : list (string * json) :=
  [ ("null", JNull);
    ("5", JInt 5);
    ("{}", dict []);
    ("{" +:+ dq +:+ "imageData" +:+ dq +:+ ": 5}", dict [("imageData", JInt 5)]);
    ("{" +:+ dq +:+ "imageData" +:+ dq +:+ ": null}", dict [("imageData", JNull)]);
    (image_request png_payload, dict [("imageData", JStr png_payload)]);
    (image_request "iVBORw0KGgo=", dict [("imageData", JStr "iVBORw0KGgo=")]);
    (image_request "QUJD", dict [("imageData", JStr "QUJD")]);
    (image_request "QUJ", dict [("imageData", JStr "QUJ")]);
    (image_request two_comma_payload, dict [("imageData", JStr two_comma_payload)]) ].

Fixpoint assoc {A} (table : list (string * A)) (key : string) : option A :=
  match table with
  | [] => None
  | (k, v) :: rest => if String.eqb k key then Some v else assoc rest key
  end.

Definition loads (body : bytes) : exn + json :=
  match assoc json_table (string_of_list_byte body) with
  | Some v => inr v
  | None => inl (Exn "JSONDecodeError" "Expecting value: line 1 column 1 (char 0)")
  end.

(** Some base64 texts and their bytes. *)
Definition base64_table : list (string * bytes) :=
  [ ("iVBORw0KGgo=", png_signature);
    ("QUJD", to_bytes "ABC");
    ("REVG", to_bytes "DEF") ].

Definition decode (s : string) : exn + bytes :=
  match assoc base64_table s with
  | Some b => inr b
  | None => inl (Exn "binascii.Error" "Incorrect padding")
  end.

Definition alphabet : string :=
  "ABCDEFGHIJKLMNOPQRSTUVWXYZabcdefghijklmnopqrstuvwxyz0123456789+/".

Definition sextet (n : N) : ascii :=
  match String.get (N.to_nat n) alphabet with
  | Some c => c
  | None => "="%char
  end.

(** Base64 with padding, three bytes to four characters. *)
Fixpoint encode (b : bytes) : string :=
  match b with
  | [] => EmptyString
  | [x] =>
      let n := Byte.to_N x in
      String (sextet (n / 4)) (String (sextet (n mod 4 * 16)) "==")
  | [x; y] =>
      let n := (Byte.to_N x * 256 + Byte.to_N y)%N in
      String (sextet (n / 1024))
        (String (sextet (n / 16 mod 64)) (String (sextet (n mod 16 * 4)) "="))
  | x :: y :: z :: rest =>
      let n := (Byte.to_N x * 65536 + Byte.to_N y * 256 + Byte.to_N z)%N in
      String (sextet (n / 262144))
        (String (sextet (n / 4096 mod 64))
           (String (sextet (n / 64 mod 64))
              (String (sextet (n mod 64)) (encode rest))))
  end%N.

(** A file is taken for an image when it starts with the PNG signature. *)
Definition open (file : bytes) : exn + picture :=
  if bytes_eqb (take 8 file) (string_of_list_byte png_signature)
  then inr (Decoded file)
  else inl (Exn "UnidentifiedImageError" "cannot identify image file").

Definition cut (p : picture) : exn + picture := inr (Cutout p).

(** The body as a JSON view would get it: the content type has to be
    JSON, and the first [Content-Length] bytes have to parse. *)
Definition flask_json (req : request) : exn + json :=
  match headers_get (headers req) "Content-Type" with
  | Some "application/json" =>
      match headers_get (headers req) "Content-Length" with
      | Some n =>
          match int_of_digits n with
          | inr len =>
              match loads (take (Z.to_nat len) (rfile req)) with
              | inr v => inr v
              | inl _ => inl (Exn "BadRequest" "400 Bad Request")
              end
          | inl _ => inl (Exn "BadRequest" "400 Bad Request")
          end
      | None => inl (Exn "BadRequest" "400 Bad Request")
      end
  | _ => inl (Exn "UnsupportedMediaType" "415 Unsupported Media Type")
  end.

#[export] Instance libs : PyLibs picture := {
  int_of_str := int_of_digits;
  json_loads := loads;
  b64decode := decode;
  b64encode := encode;
  Image_open := open;
  save_png := fun p => inr (file_of p);
  image_size := fun _ => "(1, 1)";
  image_mode := fun _ => "RGBA";
  format_exc := fun e => "Traceback (most recent call last): " +:+ exn_class e;
  get_json := flask_json
}.

(** A POST with a JSON content type and the right length. *)
Definition post (text : string) : request :=
  {| command := "POST";
     headers := [("Content-Type", "application/json");
                 ("Content-Length", pretty (String.length text))];
     rfile := to_bytes text |}.

(** A POST that announces no length. *)
Definition post_without_length (text : string) : request :=
  {| command := "POST";
     headers := [("Content-Type", "application/json")];
     rfile := to_bytes text |}.

Definition options : request :=
  {| command := "OPTIONS"; headers := []; rfile := [] |}.

(** The requests of the examples. *)
Definition png_request : request := post (image_request png_payload).
Definition two_comma_request : request := post (image_request two_comma_payload).
Definition number_request : request :=
  post ("{" +:+ dq +:+ "imageData" +:+ dq +:+ ": 5}").
Definition null_request : request := post "null".
Definition empty_object_request : request := post "{}".
Definition empty_request : request := post EmptyString.
Definition no_length_request : request := post_without_length "{}".

(** The parsed body of [png_request]. *)
Definition png_fields : gmap string json :=
  list_to_map [("imageData", JStr png_payload)].


(** A capability that raises on every image. *)
Definition broken (p : picture) : exn + picture :=
  inl (Exn "RuntimeError" "inference session failed").



Definition not_an_image_fields : gmap string json :=
  list_to_map [("imageData", JStr "QUJD")].

End Fixture.

(** * Properties *)

(** ** Strings *)

Lemma str_contains_comma (s : string) :
  str_contains "," s = negb (count_commas s =? 0)%nat.
Proof.
  induction s as [|c s IH]; [reflexivity|].
  cbn [str_contains count_commas String.prefix].
  rewrite IH. unfold comma.
  destruct (Ascii.eqb_spec c ","%char) as [->|Hc].
  - destruct (ascii_dec ","%char ","%char); [|congruence].
    destruct s; reflexivity.
  - destruct (ascii_dec ","%char c) as [E|_]; [congruence|].
    reflexivity.
Qed.

Lemma str_split_length (s : string) :
  length (str_split comma s) = S (count_commas s).
Proof.
  induction s as [|c s IH]; [reflexivity|].
  cbn [str_split count_commas].
  destruct (Ascii.eqb c comma).
  - cbn. now rewrite IH.
  - destruct (str_split comma s); cbn in *; lia.
Qed.

(** A string with a comma has a second field: [split(',')[1]] cannot
    raise [IndexError]. *)
Lemma str_split_second (s : string) :
  str_contains "," s = true ->
  exists field, str_split comma s !! 1%nat = Some field.
Proof.
  intros H. rewrite str_contains_comma in H.
  apply negb_true_iff, Nat.eqb_neq in H.
  pose proof (str_split_length s) as Hlen.
  destruct (str_split comma s) as [|f0 [|f1 fs]]; cbn in Hlen; try lia.
  now exists f1.
Qed.

(** Without a comma there is one field, the string itself. *)
Lemma str_split_no_comma (s : string) :
  count_commas s = 0%nat -> str_split comma s = [s].
Proof.
  induction s as [|c s IH]; [reflexivity|].
  cbn [str_split count_commas].
  destruct (Ascii.eqb c comma); [discriminate|].
  intros H. rewrite IH by exact H. reflexivity.
Qed.

(** With one comma, the second field is all that follows the comma. *)
Lemma str_split_one_comma (s : string) :
  count_commas s = 1%nat ->
  str_split comma s !! 1%nat = Some (after_first_comma s).
Proof.
  induction s as [|c s IH]; [discriminate|].
  cbn [str_split count_commas after_first_comma].
  destruct (Ascii.eqb c comma).
  - intros H. rewrite str_split_no_comma by lia. reflexivity.
  - intros H. specialize (IH H).
    destruct (str_split comma s) as [|f fs]; [discriminate|].
    exact IH.
Qed.

(** Without a comma the payload is decoded whole. *)
Lemma data_part_no_comma (s : string) :
  count_commas s = 0%nat -> data_part s = s.
Proof.
  intros H. unfold data_part.
  now rewrite str_contains_comma, H.
Qed.

(** With exactly one comma the decoded part is what follows the comma. *)
Lemma data_part_one_comma (s : string) :
  count_commas s = 1%nat -> data_part s = after_first_comma s.
Proof.
  intros H. unfold data_part.
  rewrite str_contains_comma, H. cbn.
  now rewrite str_split_one_comma.
Qed.

(** Up to one comma the code and the specification's wording agree. *)
Lemma data_part_spec (s : string) :
  (count_commas s <= 1)%nat -> data_part s = spec_data_part s.
Proof.
  intros H.
  destruct (count_commas s) as [|[|n]] eqn:E; [| |lia].
  - rewrite data_part_no_comma by assumption.
    unfold spec_data_part. now rewrite str_contains_comma, E.
  - rewrite data_part_one_comma by assumption.
    unfold spec_data_part. now rewrite str_contains_comma, E.
Qed.

(** ** Running a computation step by step *)

Section Steps.
Context {image : Type}.
Implicit Types (t : list (event image)) (e : exn) (ev : event image).

Lemma after_nil {A} (m : M image A) : after [] m = m.
Proof. now destruct m. Qed.

Lemma after_after {A} t t' (m : M image A) :
  after t (after t' m) = after (t ++ t') m.
Proof. unfold after, trace, result. cbn. now rewrite app_assoc. Qed.

Lemma trace_after {A} t (m : M image A) : trace (after t m) = t ++ trace m.
Proof. reflexivity. Qed.

Lemma result_after {A} t (m : M image A) : result (after t m) = result m.
Proof. reflexivity. Qed.

Lemma bind_ret {A B} (a : A) (k : A -> M image B) : bind (ret a) k = k a.
Proof. unfold bind, ret. cbn. now destruct (k a). Qed.

Lemma bind_lift_inr {A B} (a : A) (k : A -> M image B) :
  bind (lift (inr a)) k = k a.
Proof. apply bind_ret. Qed.

Lemma bind_lift_inl {A B} e (k : A -> M image B) :
  bind (lift (inl e)) k = raise e.
Proof. reflexivity. Qed.

Lemma bind_raise {A B} e (k : A -> M image B) : bind (raise e) k = raise e.
Proof. reflexivity. Qed.

Lemma bind_call_inr {A B} ev (a : A) (k : A -> M image B) :
  bind (call ev (inr a)) k = after [ev] (k a).
Proof. reflexivity. Qed.

Lemma bind_call_inl {A B} ev e (k : A -> M image B) :
  bind (call ev (inl e)) k = after [ev] (raise e).
Proof. reflexivity. Qed.

Lemma bind_emit {B} ev (k : unit -> M image B) :
  bind (emit ev) k = after [ev] (k tt).
Proof. reflexivity. Qed.

Lemma bind_after {A B} t (m : M image A) (k : A -> M image B) :
  bind (after t m) k = after t (bind m k).
Proof.
  unfold bind, after, trace, result. cbn.
  destruct (snd m); cbn; [reflexivity|]. now rewrite app_assoc.
Qed.

Lemma bind_bind {A B C} (m : M image A) (k : A -> M image B) (k' : B -> M image C) :
  bind (bind m k) k' = bind m (fun a => bind (k a) k').
Proof.
  unfold bind. destruct (snd m) as [e|a]; cbn; [reflexivity|].
  destruct (snd (k a)); cbn; [reflexivity|]. now rewrite app_assoc.
Qed.

Lemma try_except_after {A} t (m : M image A) (h : exn -> M image A) :
  try_except (after t m) h = after t (try_except m h).
Proof.
  unfold try_except, after, trace, result. cbn.
  destruct (snd m); cbn; [|reflexivity]. now rewrite app_assoc.
Qed.

Lemma try_except_raise {A} e (h : exn -> M image A) :
  try_except (raise e) h = h e.
Proof. unfold try_except, raise. cbn. now destruct (h e). Qed.

Lemma try_except_returns {A} (m : M image A) (h : exn -> M image A) a :
  result m = inr a -> try_except m h = m.
Proof.
  unfold try_except, result.
  destruct m as [t [e|a']]; cbn; intros H; [discriminate|reflexivity].
Qed.

(** Calls that do not touch the response leave its status, headers and
    body as the rest of the run makes them. *)
Lemma status_of_quiet t t' : quiet t -> status_of (t ++ t') = status_of t'.
Proof.
  unfold quiet. induction t as [|ev t IH]; [reflexivity|].
  cbn [forallb app]. intros [Hev Ht]%andb_true_iff.
  destruct ev; cbn in Hev; try discriminate; cbn; auto.
Qed.

Lemma headers_of_quiet t t' : quiet t -> headers_of (t ++ t') = headers_of t'.
Proof.
  unfold quiet. induction t as [|ev t IH]; [reflexivity|].
  cbn [forallb app]. intros [Hev Ht]%andb_true_iff.
  destruct ev; cbn in Hev; try discriminate; cbn; auto.
Qed.

Lemma body_of_quiet t t' : quiet t -> body_of (t ++ t') = body_of t'.
Proof.
  unfold quiet. induction t as [|ev t IH]; [reflexivity|].
  cbn [forallb app]. intros [Hev Ht]%andb_true_iff.
  destruct ev; cbn in Hev; try discriminate; cbn; auto.
Qed.

End Steps.

Ltac step :=
  first
    [ rewrite bind_lift_inr
    | rewrite bind_lift_inl
    | rewrite bind_ret
    | rewrite bind_raise
    | rewrite bind_call_inr
    | rewrite bind_call_inl
    | rewrite bind_emit
    | rewrite bind_after
    | rewrite try_except_after
    | rewrite try_except_raise
    | rewrite after_after
    | progress cbn [negb]
    | progress cbv beta iota ].

(** Use the outcomes named in the hypotheses. *)
Ltac use_outcome :=
  match goal with
  | H : ?l = inr _ |- context [?l] => rewrite H
  | H : ?l = inl _ |- context [?l] => rewrite H
  | H : ?l = Some _ |- context [?l] => rewrite H
  | H : ?l = None |- context [?l] => rewrite H
  end.

(** ** The request-reading lines *)

Section Reading.
Context {image : Type} `{!PyLibs image}.

(** When the body was obtained, the header gave a length, the stream
    gave the bytes and [json.loads] accepted them. *)
Lemma read_json_body_inr (req : request) (data : json) :
  result (read_json_body req) = inr data ->
  exists n body,
    py_int (headers_get (headers req) "Content-Length") = inr n /\
    rfile_read req n = inr body /\
    json_loads body = inr data.
Proof.
  unfold read_json_body, py_read, py_json_loads.
  destruct (py_int _) as [e|n] eqn:Hn; [discriminate|].
  rewrite bind_lift_inr.
  destruct (rfile_read req n) as [e|body] eqn:Hr; [discriminate|].
  rewrite bind_call_inr, result_after. cbn.
  intros H. exists n, body. auto.
Qed.

(** Lines 44-46 of [do_POST] on a [str]: the payload that goes on is
    [data_part s], and nothing is raised. *)
Lemma strip_prefix_str {B} (s : string) (k : json -> M image B) :
  (has_comma <- lift (py_in "," (JStr s));;
   image_data <- (if (has_comma : bool) then
                    fields <- lift (py_split (JStr s) comma);;
                    lift (py_index fields 1)
                  else ret (JStr s));;
   k image_data)
  = k (JStr (data_part s)).
Proof.
  unfold data_part. cbn [py_in py_split].
  rewrite bind_lift_inr.
  destruct (str_contains "," s) eqn:E.
  - destruct (str_split_second s E) as [part Hpart].
    unfold py_index. rewrite bind_lift_inr, Hpart.
    now rewrite bind_lift_inr.
  - now rewrite bind_ret.
Qed.
End Reading.

Ltac open_request H :=
  apply read_json_body_inr in H;
  destruct H as (n & body & Hlen & Hread & Hloads).

Ltac run := repeat first [ use_outcome | step ].

(** Follow both outcomes of the next call or test whose outcome is not
    known. *)
Ltac split_outcome :=
  match goal with
  | |- context [bind (call _ ?r) _] =>
      lazymatch r with
      | inr _ => fail
      | inl _ => fail
      | _ => destruct r eqn:?
      end
  | |- context [bind (lift ?r) _] =>
      lazymatch r with
      | inr _ => fail
      | inl _ => fail
      | _ => destruct r eqn:?
      end
  | |- context [if ?b then _ else _] => destruct b eqn:?
  end.

Ltac run_all := repeat first [ step | split_outcome ].

(** The serverless run has ended in the handler's answer: read off the
    status and the body behind the calls made before it. *)
Ltac read_reply :=
  unfold serverless_reply;
  rewrite ?trace_after;
  rewrite ?status_of_quiet, ?body_of_quiet by reflexivity;
  split; reflexivity.

(** The view has returned: read off what. *)
Ltac read_return :=
  unfold LocalBgServer.flask_reply;
  rewrite ?result_after;
  eexists; split; [reflexivity|split; reflexivity].

(** ** The background-removal endpoint *)

Section RemoveBackground.
Context {image : Type} `{!PyLibs image}.
Implicit Types (req : request) (remove : capability image)
  (rembg : option (capability image)).

(** A run has one status. *)
Lemma serverless_reply_status (m : M image unit) code data code' data' :
  serverless_reply m code data -> serverless_reply m code' data' -> code' = code.
Proof. intros [H _] [H' _]. congruence. Qed.

Lemma flask_reply_status (m : M image LocalBgServer.flask_return)
    code data code' data' :
  LocalBgServer.flask_reply m code data ->
  LocalBgServer.flask_reply m code' data' -> code' = code.
Proof. intros (r & Hr & Hc & _) (r' & Hr' & Hc' & _). congruence. Qed.

(** C1.  A POST whose JSON body has an ['imageData'] string that decodes,
    after the prefix is stripped, to an image is answered with status 200
    and a body with ['success'] true, ['processedImageData'] equal to
    ['data:image/png;base64,'] followed by the base64 text of the PNG file
    of the capability's output on the decoded image, and a ['message'];
    by the serverless handler and by the local mirror alike. *)
Theorem post_image_succeeds remove req m s image_bytes img out png :
  command req = "POST" ->
  m !! "imageData" = Some (JStr s) ->
  b64decode (data_part s) = inr image_bytes ->
  Image_open image_bytes = inr img ->
  remove img = inr out ->
  save_png out = inr png ->
  exists data,
    field "success" data = Some (JBool true) /\
    field "processedImageData" data
      = Some (JStr ("data:image/png;base64," +:+ b64encode png)) /\
    is_Some (field "message" data) /\
    (result (read_json_body req) = inr (JObj m) ->
     serverless_reply (RemoveBg.do_POST (Some remove) req) 200 data) /\
    (get_json req = inr (JObj m) ->
     LocalBgServer.flask_reply
       (LocalBgServer.remove_background remove req) 200 data).
Proof.
  intros Hpost Hm Hdec Hopen Hrem Hsave.
  eexists. split; [|split; [|split; [|split]]].
  4:{ intros Hbody. open_request Hbody.
      unfold RemoveBg.do_POST, serverless_reply.
      cbn [RemoveBg.REMBG_AVAILABLE negb].
      unfold py_read, py_json_loads. run.
      cbn [py_not_in py_in py_getitem]. run.
      rewrite strip_prefix_str.
      unfold py_b64decode, py_Image_open, RemoveBg.remove, py_save_png, py_b64encode.
      run.
      rewrite trace_after.
      rewrite status_of_quiet, body_of_quiet by reflexivity.
      split; reflexivity. }
  4:{ intros Hbody.
      unfold LocalBgServer.remove_background, LocalBgServer.flask_reply.
      rewrite Hpost. cbn [String.eqb Ascii.eqb Bool.eqb].
      run.
      cbn [py_not_in py_in py_getitem]. run.
      rewrite strip_prefix_str.
      unfold py_b64decode, py_Image_open, LocalBgServer.remove, py_save_png,
        py_b64encode, print.
      run.
      rewrite result_after.
      eexists. split; [reflexivity|]. split; reflexivity. }
  - reflexivity.
  - reflexivity.
  - eexists. reflexivity.
Qed.




(** C3, as the code has it.  A POST whose body is a JSON object without
    the key ['imageData'] is answered with status 400, ['success'] false
    and an ['error'] message, and the capability is not called; by the
    serverless handler when it has the capability, and by the local
    mirror. *)
Theorem post_without_image_data_is_400 remove req m :
  command req = "POST" ->
  m !! "imageData" = None ->
  exists data,
    field "success" data = Some (JBool false) /\
    is_Some (field "error" data) /\
    (result (read_json_body req) = inr (JObj m) ->
     serverless_reply (RemoveBg.do_POST (Some remove) req) 400 data /\
     without is_remove_event (trace (RemoveBg.do_POST (Some remove) req))) /\
    (get_json req = inr (JObj m) ->
     LocalBgServer.flask_reply (LocalBgServer.remove_background remove req) 400 data /\
     without is_remove_event (trace (LocalBgServer.remove_background remove req))).
Proof.
  intros Hpost Hm.
  eexists. split; [|split; [|split]].
  3:{ intros Hbody. open_request Hbody.
      unfold RemoveBg.do_POST. cbn [RemoveBg.REMBG_AVAILABLE negb].
      unfold py_read, py_json_loads. run.
      cbn [py_not_in py_in negb]. run. cbv iota.
      split; [read_reply|reflexivity]. }
  3:{ intros Hbody.
      unfold LocalBgServer.remove_background.
      rewrite Hpost. cbn [String.eqb Ascii.eqb Bool.eqb].
      run. cbn [py_not_in py_in negb]. run. cbv iota.
      split; [read_return|reflexivity]. }
  - reflexivity.
  - eexists. reflexivity.
Qed.

(** C9.  Without the capability the serverless handler answers every
    POST with status 500 and ['success'] false, and it makes no other
    call: the request body is not read and nothing is decoded, opened or
    processed. *)
Theorem unavailable_capability_is_500 rembg req :
  RemoveBg.REMBG_AVAILABLE rembg = false ->
  exists data,
    serverless_reply (RemoveBg.do_POST rembg req) 500 data /\
    field "success" data = Some (JBool false) /\
    without (fun ev => is_read_event ev || is_processing_event ev)
      (trace (RemoveBg.do_POST rembg req)) /\
    forallb is_response_event (trace (RemoveBg.do_POST rembg req)) = true.
Proof.
  intros Hflag. destruct rembg as [remove|]; [discriminate|].
  eexists. split; [split; reflexivity|].
  split; [reflexivity|]. split; reflexivity.
Qed.
(** The serverless handler on a payload that is no [str]. *)
Lemma do_POST_non_string rembg req m (v : json) :
  m !! "imageData" = Some v ->
  (forall s, v <> JStr s) ->
  result (read_json_body req) = inr (JObj m) ->
  exists data,
    serverless_reply (RemoveBg.do_POST rembg req) 500 data /\
    field "success" data = Some (JBool false).
Proof.
  intros Hm Hv Hbody. open_request Hbody.
  unfold RemoveBg.do_POST.
  destruct rembg as [remove|]; cbn [RemoveBg.REMBG_AVAILABLE negb].
  2:{ eexists. split; [read_reply|reflexivity]. }
  unfold py_read, py_json_loads. run.
  cbn [py_not_in py_in py_getitem]. run.
  unfold py_b64decode, print.
  destruct v as [ |b|i|q|s|l|m']; try (now destruct (Hv s));
    cbn [py_in py_split type_name]; run_all;
    (eexists; split; [read_reply|reflexivity]).
Qed.

(** The local mirror on a payload that is no [str]. *)
Lemma remove_background_non_string remove req m (v : json) :
  command req = "POST" ->
  m !! "imageData" = Some v ->
  (forall s, v <> JStr s) ->
  get_json req = inr (JObj m) ->
  exists data,
    LocalBgServer.flask_reply (LocalBgServer.remove_background remove req) 500 data /\
    field "success" data = Some (JBool false).
Proof.
  intros Hpost Hm Hv Hbody.
  unfold LocalBgServer.remove_background.
  rewrite Hpost. cbn [String.eqb Ascii.eqb Bool.eqb].
  run. cbn [py_not_in py_in py_getitem]. run.
  unfold py_b64decode, print.
  destruct v as [ |b|i|q|s|l|m']; try (now destruct (Hv s));
    cbn [py_in py_split type_name]; run_all;
    (eexists; split; [read_return|reflexivity]).
Qed.

(** C10.  A POST whose JSON object has the key ['imageData'] with a value
    that is no string (a number, [null], a boolean, a list, an object) is
    answered with status 500 and ['success'] false, and with no other
    status (not 400); by the serverless handler, with or without the
    capability, and by the local mirror. *)
Theorem post_non_string_is_500 rembg remove req m (v : json) :
  command req = "POST" ->
  m !! "imageData" = Some v ->
  (forall s, v <> JStr s) ->
  (result (read_json_body req) = inr (JObj m) ->
   exists data,
     serverless_reply (RemoveBg.do_POST rembg req) 500 data /\
     field "success" data = Some (JBool false) /\
     forall code data',
       serverless_reply (RemoveBg.do_POST rembg req) code data' -> code <> 400) /\
  (get_json req = inr (JObj m) ->
   exists data,
     LocalBgServer.flask_reply (LocalBgServer.remove_background remove req) 500 data /\
     field "success" data = Some (JBool false) /\
     forall code data',
       LocalBgServer.flask_reply (LocalBgServer.remove_background remove req) code data' ->
       code <> 400).
Proof.
  intros Hpost Hm Hv. split; intros Hbody.
  - destruct (do_POST_non_string rembg req m v Hm Hv Hbody) as (data & Hr & Hs).
    exists data. split; [exact Hr|]. split; [exact Hs|].
    intros code data' Hr'.
    rewrite (serverless_reply_status _ _ _ _ _ Hr Hr'). discriminate.
  - destruct (remove_background_non_string remove req m v Hpost Hm Hv Hbody)
      as (data & Hr & Hs).
    exists data. split; [exact Hr|]. split; [exact Hs|].
    intros code data' Hr'.
    rewrite (flask_reply_status _ _ _ _ _ Hr Hr'). discriminate.
Qed.
(** What is handed to [b64decode] for a [str] payload is [data_part] of
    it, once, whatever happens afterwards. *)
Lemma do_POST_decodes remove req m s :
  m !! "imageData" = Some (JStr s) ->
  result (read_json_body req) = inr (JObj m) ->
  decoded_of (trace (RemoveBg.do_POST (Some remove) req)) = [JStr (data_part s)].
Proof.
  intros Hm Hbody. open_request Hbody.
  unfold RemoveBg.do_POST. cbn [RemoveBg.REMBG_AVAILABLE negb].
  unfold py_read, py_json_loads. run.
  cbn [py_not_in py_in py_getitem]. run.
  rewrite strip_prefix_str.
  unfold py_b64decode, py_Image_open, RemoveBg.remove, py_save_png, py_b64encode, print.
  run_all; rewrite ?trace_after; reflexivity.
Qed.

Lemma remove_background_decodes remove req m s :
  command req = "POST" ->
  m !! "imageData" = Some (JStr s) ->
  get_json req = inr (JObj m) ->
  decoded_of (trace (LocalBgServer.remove_background remove req))
  = [JStr (data_part s)].
Proof.
  intros Hpost Hm Hbody.
  unfold LocalBgServer.remove_background.
  rewrite Hpost. cbn [String.eqb Ascii.eqb Bool.eqb].
  run. cbn [py_not_in py_in py_getitem]. run.
  rewrite strip_prefix_str.
  unfold py_b64decode, py_Image_open, LocalBgServer.remove, py_save_png,
    py_b64encode, print.
  run_all; rewrite ?trace_after; reflexivity.
Qed.

(** Up to one comma in the payload, what is decoded is what the
    specification says: the text after the comma, or the whole payload. *)
Lemma decodes_after_the_comma remove req m s :
  command req = "POST" ->
  m !! "imageData" = Some (JStr s) ->
  (count_commas s <= 1)%nat ->
  (result (read_json_body req) = inr (JObj m) ->
   decoded_of (trace (RemoveBg.do_POST (Some remove) req))
   = [JStr (spec_data_part s)]) /\
  (get_json req = inr (JObj m) ->
   decoded_of (trace (LocalBgServer.remove_background remove req))
   = [JStr (spec_data_part s)]).
Proof.
  intros Hpost Hm Hc. rewrite <- (data_part_spec s Hc).
  split; intros Hbody.
  - now apply do_POST_decodes with (m := m).
  - now apply remove_background_decodes with (m := m).
Qed.

(** Every run of the serverless [do_POST] ends in one answer: calls that
    do not touch the response, then one [_send_response] with status 200,
    400 or 500. *)
Lemma do_POST_answers rembg req :
  exists pre code data,
    trace (RemoveBg.do_POST rembg req)
    = pre ++ trace (RemoveBg._send_response code data) /\
    quiet pre /\
    In code [200; 400; 500] /\
    result (RemoveBg.do_POST rembg req) = inr tt.
Proof.
  unfold RemoveBg.do_POST.
  destruct rembg as [remove|]; cbn [RemoveBg.REMBG_AVAILABLE negb].
  2:{ exists []. eexists _, _. split; [reflexivity|].
      split; [reflexivity|]. split; [|reflexivity]. cbn. auto. }
  unfold read_json_body, py_read, py_json_loads, py_b64decode, py_Image_open,
    RemoveBg.remove, py_save_png, py_b64encode, print.
  run_all;
    try (rewrite trace_after, result_after;
         eexists _, _, _; split; [reflexivity|];
         split; [reflexivity|]; split; [cbn; auto|reflexivity]).
  all: exists []; eexists _, _; split; [reflexivity|];
    split; [reflexivity|]; split; [cbn; auto|reflexivity].
Qed.
(** The headers of every answer of the serverless [do_POST]. *)
Lemma do_POST_headers rembg req :
  headers_of (trace (RemoveBg.do_POST rembg req))
  = cors_headers ++ [("Content-Type", "application/json")].
Proof.
  destruct (do_POST_answers rembg req) as (pre & code & data & -> & Hpre & _).
  now rewrite headers_of_quiet.
Qed.

(** The headers of the answer to a preflight request. *)
Lemma do_OPTIONS_headers req :
  headers_of (trace (RemoveBg.do_OPTIONS (image := image) req)) = cors_headers.
Proof. reflexivity. Qed.
End RemoveBackground.

(** ** The 3D-conversion endpoint and the preflight requests *)

Section Placeholder.
Context {image : Type} `{!PyLibs image}.
Implicit Types (req : request) (rembg : option (capability image)).

(** C5, as the code has it.  A POST whose [Content-Length] header is an
    integer and whose body of that length is accepted by [json.loads] is
    answered with status 501, ['success'] false, ['error'] equal to
    ["Not implemented"] and a ['message'], whatever the JSON value. *)
Theorem placeholder_post_is_501 req (posted : json) :
  result (read_json_body req) = inr posted ->
  exists data,
    serverless_reply (ImagesToGlb.do_POST req) 501 data /\
    field "success" data = Some (JBool false) /\
    field "error" data = Some (JStr "Not implemented") /\
    is_Some (field "message" data).
Proof.
  intros Hbody. open_request Hbody.
  unfold ImagesToGlb.do_POST, py_read, py_json_loads. run.
  eexists. split; [read_reply|].
  split; [reflexivity|]. split; [reflexivity|]. eexists. reflexivity.
Qed.

(** When the body cannot be read or parsed, the placeholder answers with
    status 500 and the message of the exception. *)
Lemma placeholder_post_failure req e :
  result (read_json_body req) = inl e ->
  serverless_reply (ImagesToGlb.do_POST req) 500
    (dict [("success", JBool false); ("error", JStr (exn_str e))]).
Proof.
  unfold read_json_body, ImagesToGlb.do_POST, py_read, py_json_loads.
  destruct (py_int _) as [e0|n].
  { rewrite !bind_lift_inl. cbn [result raise snd].
    intros [= ->]. run. read_reply. }
  rewrite !bind_lift_inr.
  destruct (rfile_read req n) as [e0|body].
  { rewrite !bind_call_inl, result_after. cbn [result raise snd].
    intros [= ->]. run. read_reply. }
  rewrite !bind_call_inr, result_after. cbn [result call snd].
  intros Hbody. rewrite Hbody. run. read_reply.
Qed.

(** Every run of the placeholder's [do_POST] ends in one answer. *)
Lemma placeholder_do_POST_headers req :
  headers_of (trace (ImagesToGlb.do_POST req))
  = cors_headers ++ [("Content-Type", "application/json")].
Proof.
  unfold ImagesToGlb.do_POST, py_read, py_json_loads.
  run_all; rewrite ?trace_after;
    rewrite ?headers_of_quiet by reflexivity; reflexivity.
Qed.

(** C6.  Every answer of the two serverless handlers, to a POST (with
    status 200, 400, 500 or 501) and to an OPTIONS request, carries the
    three headers [Access-Control-Allow-Origin: *],
    [Access-Control-Allow-Methods: POST, OPTIONS] and
    [Access-Control-Allow-Headers: Content-Type]. *)
Theorem every_response_carries_cors rembg req :
  incl cors_headers (headers_of (trace (RemoveBg.do_POST rembg req))) /\
  incl cors_headers (headers_of (trace (RemoveBg.do_OPTIONS (image := image) req))) /\
  incl cors_headers (headers_of (trace (ImagesToGlb.do_POST req))) /\
  incl cors_headers (headers_of (trace (ImagesToGlb.do_OPTIONS (image := image) req))).
Proof.
  rewrite do_POST_headers, placeholder_do_POST_headers.
  repeat split; try apply incl_appl; apply incl_refl.
Qed.

(** C7, at every OPTIONS request.  The serverless [do_OPTIONS] sends the
    three headers and ends the headers, with no body, but it never calls
    [send_response]: its answer has no status line, neither 200 nor 204. *)
Theorem options_sends_no_status req :
  status_of (trace (RemoveBg.do_OPTIONS (image := image) req)) = None /\
  status_of (trace (ImagesToGlb.do_OPTIONS (image := image) req)) = None /\
  body_of (trace (RemoveBg.do_OPTIONS (image := image) req)) = [] /\
  body_of (trace (ImagesToGlb.do_OPTIONS (image := image) req)) = [] /\
  trace (RemoveBg.do_OPTIONS (image := image) req)
  = trace (RemoveBg._send_cors_headers : M image unit) ++ [EvEndHeaders] /\
  trace (ImagesToGlb.do_OPTIONS (image := image) req)
  = trace (ImagesToGlb._send_cors_headers : M image unit) ++ [EvEndHeaders].
Proof. repeat split. Qed.

(** The sibling paths do send a status: [_send_response] starts with
    [send_response], and the local mirror answers OPTIONS with the empty
    body and status 200. *)
Lemma send_response_sends_status (code : Z) (data : json) :
  status_of (trace (RemoveBg._send_response (image := image) code data)) = Some code /\
  status_of (trace (ImagesToGlb._send_response (image := image) code data)) = Some code.
Proof. split; reflexivity. Qed.

Lemma mirror_options_is_200 req (remove : capability image) :
  command req = "OPTIONS" ->
  result (LocalBgServer.remove_background remove req)
  = inr (LocalBgServer.BodyStatus (LocalBgServer.Text "") 200).
Proof.
  intros Hoptions. unfold LocalBgServer.remove_background.
  now rewrite Hoptions.
Qed.
End Placeholder.

(** ** The handlers on concrete requests *)

#[local] Existing Instance Fixture.libs.

(** C2, at a payload with two commas.  Both handlers hand [b64decode]
    the field between the first and the second comma, ["QUJD"], and drop
    [",REVG"]; what follows the first comma is ["QUJD,REVG"]. *)
Theorem second_comma_cuts_payload :
  decoded_of (trace (RemoveBg.do_POST (Some Fixture.cut) Fixture.two_comma_request))
  = [JStr "QUJD"] /\
  decoded_of (trace (LocalBgServer.remove_background Fixture.cut Fixture.two_comma_request))
  = [JStr "QUJD"] /\
  data_part "data:image/png;base64,QUJD,REVG" = "QUJD" /\
  spec_data_part "data:image/png;base64,QUJD,REVG" = "QUJD,REVG".
Proof. repeat split; vm_compute; reflexivity. Qed.

(** C1 on a request that carries the PNG signature as a data URI. *)
Lemma post_image_succeeds_witness :
  exists data,
    field "success" data = Some (JBool true) /\
    field "processedImageData" data
      = Some (JStr "data:image/png;base64,iVBORw0KGgo=") /\
    serverless_reply (RemoveBg.do_POST (Some Fixture.cut) Fixture.png_request) 200 data /\
    LocalBgServer.flask_reply
      (LocalBgServer.remove_background Fixture.cut Fixture.png_request) 200 data.
Proof.
  destruct (post_image_succeeds Fixture.cut Fixture.png_request Fixture.png_fields
              Fixture.png_payload Fixture.png_signature
              (Fixture.Decoded Fixture.png_signature)
              (Fixture.Cutout (Fixture.Decoded Fixture.png_signature))
              Fixture.png_signature)
    as (data & Hsuccess & Himage & _ & Hserverless & Hlocal);
    try (vm_compute; reflexivity).
  exists data.
  split; [exact Hsuccess|]. split; [exact Himage|].
  split; [apply Hserverless|apply Hlocal]; vm_compute; reflexivity.
Defined.

(** C3 is not true of every JSON body.  The body [null] is valid JSON
    without the key, and both handlers answer it with status 500: the
    test ['imageData' not in data] raises [TypeError] on [None].  And
    without the capability the serverless handler answers the body [{}]
    with status 500 as well. *)
Lemma missing_key_counterexample :
  result (read_json_body Fixture.null_request) = inr JNull /\
  get_json Fixture.null_request = inr JNull /\
  field "imageData" JNull = None /\
  status_of (trace (RemoveBg.do_POST (Some Fixture.cut) Fixture.null_request))
  = Some 500 /\
  LocalBgServer.returned_status
    (LocalBgServer.remove_background Fixture.cut Fixture.null_request)
  = Some 500 /\
  result (read_json_body Fixture.empty_object_request) = inr (dict []) /\
  status_of (trace (RemoveBg.do_POST None Fixture.empty_object_request))
  = Some 500.
Proof. repeat split; vm_compute; reflexivity. Qed.

(** C3 on the body [{}]. *)
Lemma post_without_image_data_witness :
  exists data,
    field "success" data = Some (JBool false) /\
    serverless_reply
      (RemoveBg.do_POST (Some Fixture.cut) Fixture.empty_object_request) 400 data /\
    LocalBgServer.flask_reply
      (LocalBgServer.remove_background Fixture.cut Fixture.empty_object_request)
      400 data.
Proof.
  destruct (post_without_image_data_is_400 Fixture.cut
              Fixture.empty_object_request (list_to_map []))
    as (data & Hsuccess & _ & Hserverless & Hlocal);
    try (vm_compute; reflexivity).
  exists data. split; [exact Hsuccess|].
  split; [apply Hserverless|apply Hlocal]; vm_compute; reflexivity.
Defined.


(** C5 is not true of every request.  A POST that announces no length
    is answered with status 500 ([int(None)] raises [TypeError]), and so
    is a POST with an empty body, which [json.loads] refuses. *)
Lemma placeholder_post_counterexample :
  headers_get (headers Fixture.no_length_request) "Content-Length" = None /\
  status_of (trace (ImagesToGlb.do_POST Fixture.no_length_request)) = Some 500 /\
  rfile Fixture.empty_request = [] /\
  status_of (trace (ImagesToGlb.do_POST Fixture.empty_request)) = Some 500.
Proof. repeat split; vm_compute; reflexivity. Qed.

(** C5 on the body [{}]. *)
Lemma placeholder_post_witness :
  exists data,
    serverless_reply (ImagesToGlb.do_POST Fixture.empty_object_request) 501 data /\
    field "error" data = Some (JStr "Not implemented").
Proof.
  destruct (placeholder_post_is_501 Fixture.empty_object_request (dict []))
    as (data & Hreply & _ & Herror & _);
    [vm_compute; reflexivity|].
  now exists data.
Defined.

(** C9 on the PNG request, in a process without the capability. *)
Lemma unavailable_capability_witness :
  exists data,
    serverless_reply (RemoveBg.do_POST None Fixture.png_request) 500 data /\
    field "success" data = Some (JBool false) /\
    without (fun ev => is_read_event ev || is_processing_event ev)
      (trace (RemoveBg.do_POST None Fixture.png_request)) /\
    forallb is_response_event (trace (RemoveBg.do_POST None Fixture.png_request))
    = true.
Proof.
  apply (unavailable_capability_is_500 None Fixture.png_request).
  reflexivity.
Defined.

(** C10 on the body [{"imageData": 5}]. *)
Lemma post_non_string_witness :
  (exists data,
     serverless_reply
       (RemoveBg.do_POST (Some Fixture.cut) Fixture.number_request) 500 data /\
     field "success" data = Some (JBool false)) /\
  (exists data,
     LocalBgServer.flask_reply
       (LocalBgServer.remove_background Fixture.cut Fixture.number_request)
       500 data /\
     field "success" data = Some (JBool false)).
Proof.
  destruct (post_non_string_is_500 (Some Fixture.cut) Fixture.cut
              Fixture.number_request
              (list_to_map [("imageData", JInt 5)]) (JInt 5))
    as [Hserverless Hlocal];
    try (vm_compute; reflexivity).
  { intros s. discriminate. }
  split.
  - destruct Hserverless as (data & Hreply & Hsuccess & _);
      [vm_compute; reflexivity|].
    now exists data.
  - destruct Hlocal as (data & Hreply & Hsuccess & _);
      [vm_compute; reflexivity|].
    now exists data.
Defined.

(** ** Further properties of the handlers *)

Section Further.
Context {image : Type} `{!PyLibs image}.
Implicit Types (req : request) (remove : capability image)
  (rembg : option (capability image)).

(** X1.  Every run of the serverless background-removal [do_POST]
    returns without raising and answers exactly once: calls that do not
    touch the response, then one [_send_response] whose status is 200,
    400 or 500 and whose body has ['success'] true exactly when the
    status is 200. *)
Theorem remove_bg_post_answers_once rembg req :
  exists pre code data,
    trace (RemoveBg.do_POST rembg req)
    = pre ++ trace (RemoveBg._send_response code data) /\
    quiet pre /\
    result (RemoveBg.do_POST rembg req) = inr tt /\
    In code [200; 400; 500] /\
    field "success" data = Some (JBool (code =? 200)).
Proof.
  unfold RemoveBg.do_POST.
  destruct rembg as [remove|]; cbn [RemoveBg.REMBG_AVAILABLE negb].
  2:{ exists []. eexists _, _. split; [reflexivity|].
      split; [reflexivity|]. split; [reflexivity|].
      split; [cbn; auto|reflexivity]. }
  unfold read_json_body, py_read, py_json_loads, py_b64decode, py_Image_open,
    RemoveBg.remove, py_save_png, py_b64encode, print.
  run_all;
    rewrite trace_after, result_after;
    eexists _, _, _; (split; [reflexivity|]);
    (split; [reflexivity|]); (split; [reflexivity|]);
    (split; [cbn; auto|reflexivity]).
Qed.

(** X2.  The view of the local mirror never raises: every run returns,
    with status 200, 400 or 500, and for every method but OPTIONS with a
    JSON body whose ['success'] is true exactly when the status is 200. *)
Theorem mirror_always_returns remove req :
  exists r,
    result (LocalBgServer.remove_background remove req) = inr r /\
    In (LocalBgServer.status_code r) [200; 400; 500] /\
    (command req <> "OPTIONS" ->
     exists data,
       LocalBgServer.body r = LocalBgServer.Jsonify data /\
       field "success" data
       = Some (JBool (LocalBgServer.status_code r =? 200))).
Proof.
  unfold LocalBgServer.remove_background.
  destruct (String.eqb_spec (command req) "OPTIONS") as [Hopt|Hopt].
  { eexists. split; [reflexivity|]. split; [cbn; auto|]. intros H. now destruct H. }
  unfold py_b64decode, py_Image_open, LocalBgServer.remove, py_save_png,
    py_b64encode, print.
  run_all; rewrite ?result_after;
    (eexists; split; [reflexivity|]; split; [cbn; auto|];
     intros _; eexists; split; reflexivity).
Qed.

(** X3.  Every run of the placeholder [do_POST] returns without raising
    and answers exactly once, with status 501 or 500 and ['success']
    false; it never decodes, opens or processes anything. *)
Theorem placeholder_post_answers_once req :
  exists pre code data,
    trace (ImagesToGlb.do_POST req)
    = pre ++ trace (ImagesToGlb._send_response code data) /\
    quiet pre /\
    result (ImagesToGlb.do_POST req) = inr tt /\
    In code [501; 500] /\
    field "success" data = Some (JBool false) /\
    without is_processing_event (trace (ImagesToGlb.do_POST req)).
Proof.
  unfold ImagesToGlb.do_POST, py_read, py_json_loads.
  run_all; rewrite ?trace_after, ?result_after.
  1: exists [].
  2-4: eexists.
  all: eexists _, _; (split; [reflexivity|]);
    (split; [reflexivity|]); (split; [reflexivity|]);
    (split; [cbn; auto|]); split; reflexivity.
Qed.
(** X4.  The placeholder answers 501 exactly when it could read and
    parse the body; when reading or parsing raised [e] it answers 500
    with ['success'] false and ['error'] equal to [str(e)]. *)
Theorem placeholder_status req :
  match result (read_json_body req) with
  | inr _ => status_of (trace (ImagesToGlb.do_POST req)) = Some 501
  | inl e =>
      serverless_reply (ImagesToGlb.do_POST req) 500
        (dict [("success", JBool false); ("error", JStr (exn_str e))])
  end.
Proof.
  destruct (result (read_json_body req)) as [e|posted] eqn:Hbody.
  - now apply placeholder_post_failure.
  - open_request Hbody.
    unfold ImagesToGlb.do_POST, py_read, py_json_loads. run.
    rewrite trace_after. now rewrite status_of_quiet.
Qed.

(** X5.  When the body cannot be read or parsed (no usable
    [Content-Length], or a body the JSON parser refuses), the
    background-removal handlers answer 500, not 400, with ['error'] equal
    to ["Processing failed: "] followed by the message of the exception. *)
Theorem unreadable_body_is_500 remove req e :
  command req = "POST" ->
  (result (read_json_body req) = inl e ->
   serverless_reply (RemoveBg.do_POST (Some remove) req) 500
     (dict [("success", JBool false);
            ("error", JStr ("Processing failed: " +:+ exn_str e))])) /\
  (get_json req = inl e ->
   LocalBgServer.flask_reply (LocalBgServer.remove_background remove req) 500
     (dict [("success", JBool false);
            ("error", JStr ("Processing failed: " +:+ exn_str e))])).
Proof.
  intros Hpost. split.
  - unfold read_json_body, RemoveBg.do_POST, py_read, py_json_loads, print.
    cbn [RemoveBg.REMBG_AVAILABLE negb]. cbv iota.
    destruct (py_int _) as [e0|n].
    { rewrite !bind_lift_inl. cbn [result raise snd].
      intros [= ->]. run. read_reply. }
    rewrite !bind_lift_inr.
    destruct (rfile_read req n) as [e0|body].
    { rewrite !bind_call_inl, result_after. cbn [result raise snd].
      intros [= ->]. run. read_reply. }
    rewrite !bind_call_inr, result_after. cbn [result call snd].
    intros Hbody. rewrite Hbody. run. read_reply.
  - intros Hbody. unfold LocalBgServer.remove_background, print.
    rewrite Hpost. cbn [String.eqb Ascii.eqb Bool.eqb]. run.
    read_return.
Qed.

(** X6.  When the upload decodes and opens but the capability raises
    [e], or the capability returns and saving its output as PNG raises
    [e], both handlers answer 500 with ['error'] equal to
    ["Processing failed: "] followed by [str(e)]. *)
Theorem failing_capability_is_500 remove req m s image_bytes img e :
  command req = "POST" ->
  m !! "imageData" = Some (JStr s) ->
  b64decode (data_part s) = inr image_bytes ->
  Image_open image_bytes = inr img ->
  (remove img = inl e \/
   exists out, remove img = inr out /\ save_png out = inl e) ->
  (result (read_json_body req) = inr (JObj m) ->
   serverless_reply (RemoveBg.do_POST (Some remove) req) 500
     (dict [("success", JBool false);
            ("error", JStr ("Processing failed: " +:+ exn_str e))])) /\
  (get_json req = inr (JObj m) ->
   LocalBgServer.flask_reply (LocalBgServer.remove_background remove req) 500
     (dict [("success", JBool false);
            ("error", JStr ("Processing failed: " +:+ exn_str e))])).
Proof.
  intros Hpost Hm Hdec Hopen Hfail. split; intros Hbody.
  - open_request Hbody.
    unfold RemoveBg.do_POST. cbn [RemoveBg.REMBG_AVAILABLE negb].
    unfold py_read, py_json_loads. run.
    cbn [py_not_in py_in py_getitem]. run.
    rewrite strip_prefix_str.
    unfold py_b64decode, py_Image_open, RemoveBg.remove, py_save_png, print.
    destruct Hfail as [Hrem|(out & Hrem & Hsave)]; run; read_reply.
  - unfold LocalBgServer.remove_background.
    rewrite Hpost. cbn [String.eqb Ascii.eqb Bool.eqb].
    run. cbn [py_not_in py_in py_getitem]. run.
    rewrite strip_prefix_str.
    unfold py_b64decode, py_Image_open, LocalBgServer.remove, py_save_png, print.
    destruct Hfail as [Hrem|(out & Hrem & Hsave)]; run; read_return.
Qed.
(** The status at the end of a run is not the one asked about. *)
Ltac other_status :=
  rewrite ?trace_after; rewrite ?status_of_quiet by reflexivity;
  let H := fresh in intros H; cbn in H; discriminate H.

(** A subscript that succeeds was a lookup in a [dict]. *)
Lemma py_getitem_inr (container : json) key v :
  py_getitem container key = inr v ->
  exists m, container = JObj m /\ m !! key = Some v.
Proof.
  destruct container as [ |b|i|q|s|l|m]; try discriminate.
  cbn. destruct (m !! key) as [v'|] eqn:Hv; [|discriminate].
  intros [= ->]. now exists m.
Qed.

(** X7.  The serverless handler answers 200 only when everything
    succeeded: the capability is imported, the body is a JSON object
    whose ['imageData'] is a string, the stripped payload decodes, the
    bytes open as an image, the capability returns and its output saves
    as PNG; and the answer carries that PNG. *)
Theorem success_means_processed rembg req data :
  serverless_reply (RemoveBg.do_POST rembg req) 200 data ->
  exists remove m s image_bytes img out png,
    rembg = Some remove /\
    result (read_json_body req) = inr (JObj m) /\
    m !! "imageData" = Some (JStr s) /\
    b64decode (data_part s) = inr image_bytes /\
    Image_open image_bytes = inr img /\
    remove img = inr out /\
    save_png out = inr png /\
    field "processedImageData" data
    = Some (JStr ("data:image/png;base64," +:+ b64encode png)).
Proof.
  unfold serverless_reply. intros [Hstatus Hdata]. revert Hstatus Hdata.
  unfold RemoveBg.do_POST, read_json_body.
  destruct rembg as [remove|]; cbn [RemoveBg.REMBG_AVAILABLE negb]; cbv iota;
    [|other_status].
  unfold py_read, py_json_loads, print.
  destruct (py_int _) as [e|n] eqn:Hlen; run; [other_status|].
  destruct (rfile_read req n) as [e|body] eqn:Hread; run; [other_status|].
  destruct (json_loads body) as [e|posted] eqn:Hloads; run; [other_status|].
  destruct (py_not_in "imageData" posted) as [e|[|]] eqn:Hin; run;
    [other_status|other_status|].
  destruct (py_getitem posted "imageData") as [e|v] eqn:Hget; run;
    [other_status|].
  apply py_getitem_inr in Hget. destruct Hget as (m & -> & Hm).
  unfold py_b64decode, py_Image_open, RemoveBg.remove, py_save_png, py_b64encode.
  destruct v as [ |b|i|q|s|l|m'];
    try (cbn [py_in py_split type_name]; run_all; other_status).
  rewrite strip_prefix_str.
  destruct (b64decode (data_part s)) as [e|image_bytes] eqn:Hdec; run;
    [other_status|].
  destruct (Image_open image_bytes) as [e|img] eqn:Hopen; run; [other_status|].
  destruct (remove img) as [e|out] eqn:Hrem; run; [other_status|].
  destruct (save_png out) as [e|png] eqn:Hsave; run; [other_status|].
  rewrite trace_after, body_of_quiet by reflexivity.
  intros _ Hdata. cbn in Hdata. injection Hdata as <-.
  exists remove, m, s, image_bytes, img, out, png.
  cbn [result snd after]. repeat split; try assumption; reflexivity.
Qed.

(** X8.  With the capability imported and the body read, the serverless
    handler answers 400 exactly when the test ['imageData' in data] is
    false: for an object without the key, but also for a list without
    that element and for a string without that substring; for a body on
    which the test raises ([null], a boolean, a number) it does not. *)
Theorem bad_request_iff_absent remove req posted :
  result (read_json_body req) = inr posted ->
  status_of (trace (RemoveBg.do_POST (Some remove) req)) = Some 400
  <-> py_in "imageData" posted = inr false.
Proof.
  intros Hbody. open_request Hbody.
  unfold RemoveBg.do_POST. cbn [RemoveBg.REMBG_AVAILABLE negb]. cbv iota.
  unfold py_read, py_json_loads, print. run.
  unfold py_not_in.
  destruct (py_in "imageData" posted) as [e|[|]] eqn:Hin.
  - run. split; [other_status|discriminate].
  - split; [|discriminate].
    unfold py_b64decode, py_Image_open, RemoveBg.remove, py_save_png, py_b64encode.
    run_all; other_status.
  - run. split; [reflexivity|].
    intros _. rewrite trace_after. now rewrite status_of_quiet.
Qed.
(** No field of a split has a comma, and none is longer than the string. *)
Lemma str_split_fields (s : string) :
  Forall (fun part => count_commas part = 0%nat /\
                      (String.length part <= String.length s)%nat)
    (str_split comma s).
Proof.
  induction s as [|c s IH]; [repeat constructor|].
  cbn [str_split].
  destruct (Ascii.eqb c comma) eqn:Hc.
  - constructor; [split; [reflexivity|cbn; lia]|].
    eapply Forall_impl; [exact IH|]. cbn. intros part [H0 Hlen]. split; [exact H0|lia].
  - destruct (str_split comma s) as [|part parts].
    + constructor; [|constructor].
      split; [cbn; now rewrite Hc|cbn; lia].
    + inversion IH as [|? ? [H0 Hlen] Hrest]; subst.
      constructor.
      * cbn. rewrite Hc. split; [exact H0|lia].
      * eapply Forall_impl; [exact Hrest|]. cbn. intros p [Hp0 Hplen].
        split; [exact Hp0|lia].
Qed.

(** X9.  What the handlers hand to [b64decode] for a string payload has
    no comma in it and is no longer than the payload: the stripping
    never lets a comma through and never adds anything. *)
Theorem data_part_has_no_comma (s : string) :
  count_commas (data_part s) = 0%nat /\
  (String.length (data_part s) <= String.length s)%nat.
Proof.
  unfold data_part.
  destruct (str_contains "," s) eqn:Hcomma.
  - destruct (str_split_second s Hcomma) as [part Hpart]. rewrite Hpart.
    pose proof (str_split_fields s) as Hall.
    rewrite Forall_forall in Hall. apply Hall.
    eapply list_elem_of_lookup_2. exact Hpart.
  - rewrite str_contains_comma in Hcomma.
    apply negb_false_iff, Nat.eqb_eq in Hcomma. split; [exact Hcomma|lia].
Qed.




(** X11.  In every run of a background-removal handler the capability
    is called at most once, and only on the image that [Image.open]
    returned for the one byte string it was given; a run that opens
    nothing calls nothing. *)
Theorem capability_called_on_opened_image rembg remove req :
  (removed_of (trace (RemoveBg.do_POST rembg req)) = [] \/
   exists image_bytes img,
     opened_of (trace (RemoveBg.do_POST rembg req)) = [image_bytes] /\
     Image_open image_bytes = inr img /\
     removed_of (trace (RemoveBg.do_POST rembg req)) = [img]) /\
  (removed_of (trace (LocalBgServer.remove_background remove req)) = [] \/
   exists image_bytes img,
     opened_of (trace (LocalBgServer.remove_background remove req)) = [image_bytes] /\
     Image_open image_bytes = inr img /\
     removed_of (trace (LocalBgServer.remove_background remove req)) = [img]).
Proof.
  split.
  - unfold RemoveBg.do_POST.
    destruct rembg as [capability|]; cbn [RemoveBg.REMBG_AVAILABLE negb];
      [|left; reflexivity].
    unfold py_read, py_json_loads, py_b64decode, py_Image_open,
      RemoveBg.remove, py_save_png, py_b64encode, print.
    run_all; rewrite ?trace_after;
      first [ left; reflexivity
            | right; eexists _, _; split; [reflexivity|];
              split; [eassumption|reflexivity] ].
  - unfold LocalBgServer.remove_background.
    destruct (String.eqb (command req) "OPTIONS"); [left; reflexivity|].
    unfold py_b64decode, py_Image_open, LocalBgServer.remove, py_save_png,
      py_b64encode, print.
    run_all; rewrite ?trace_after;
      first [ left; reflexivity
            | right; eexists _, _; split; [reflexivity|];
              split; [eassumption|reflexivity] ].
Qed.

(** X12.  Every answer of a serverless [do_POST] has exactly four
    headers of the handler's own, in this order: the three CORS headers
    and [Content-Type: application/json]. *)
Theorem post_answers_have_four_headers rembg req :
  headers_of (trace (RemoveBg.do_POST rembg req))
  = [ ("Access-Control-Allow-Origin", "*");
      ("Access-Control-Allow-Methods", "POST, OPTIONS");
      ("Access-Control-Allow-Headers", "Content-Type");
      ("Content-Type", "application/json") ] /\
  headers_of (trace (ImagesToGlb.do_POST req))
  = [ ("Access-Control-Allow-Origin", "*");
      ("Access-Control-Allow-Methods", "POST, OPTIONS");
      ("Access-Control-Allow-Headers", "Content-Type");
      ("Content-Type", "application/json") ].
Proof.
  rewrite do_POST_headers, placeholder_do_POST_headers. split; reflexivity.
Qed.

(** X13.  A serverless [do_POST] reads the request stream at most once,
    and then with exactly the length the [Content-Length] header
    announces; when the header is missing or no integer, it reads
    nothing. *)
Theorem reads_the_announced_length rembg req :
  let announced := py_int (headers_get (headers req) "Content-Length") in
  (reads_of (trace (RemoveBg.do_POST rembg req)) = [] \/
   exists n, announced = inr n /\
             reads_of (trace (RemoveBg.do_POST rembg req)) = [n]) /\
  (match announced with
   | inr n => reads_of (trace (ImagesToGlb.do_POST req)) = [n]
   | inl _ => reads_of (trace (ImagesToGlb.do_POST req)) = []
   end).
Proof.
  cbv zeta. split.
  - unfold RemoveBg.do_POST.
    destruct rembg as [capability|]; cbn [RemoveBg.REMBG_AVAILABLE negb];
      [|left; reflexivity].
    unfold py_read, py_json_loads, py_b64decode, py_Image_open,
      RemoveBg.remove, py_save_png, py_b64encode, print.
    destruct (py_int _) as [e|n]; run; [left; reflexivity|].
    right. exists n. split; [reflexivity|].
    run_all; rewrite ?trace_after; reflexivity.
  - unfold ImagesToGlb.do_POST, py_read, py_json_loads.
    destruct (py_int _) as [e|n]; run; [reflexivity|].
    run_all; rewrite ?trace_after; reflexivity.
Qed.
(** The status the view returns at the end of a run is not the one asked
    about. *)
Ltac other_return :=
  unfold LocalBgServer.returned_status, LocalBgServer.flask_reply;
  rewrite ?result_after;
  let H := fresh in
  intros H; cbn in H;
  first [ discriminate H
        | let r := fresh in
          let Hr := fresh in
          let Hc := fresh in
          destruct H as (r & Hr & Hc & _);
          injection Hr as <-; cbn in Hc; discriminate Hc ].

(** X14.  With the body parsed, the local mirror returns status 400
    exactly when the test ['imageData' in data] is false; a body on which
    the test raises ([null], a boolean, a number) is not answered 400. *)
Theorem mirror_bad_request_iff_absent remove req posted :
  command req = "POST" ->
  get_json req = inr posted ->
  LocalBgServer.returned_status (LocalBgServer.remove_background remove req)
  = Some 400
  <-> py_in "imageData" posted = inr false.
Proof.
  intros Hpost Hbody.
  unfold LocalBgServer.remove_background.
  rewrite Hpost. cbn [String.eqb Ascii.eqb Bool.eqb]. run.
  unfold py_not_in, print.
  destruct (py_in "imageData" posted) as [e|[|]] eqn:Hin.
  - run. split; [other_return|discriminate].
  - split; [|discriminate].
    unfold py_b64decode, py_Image_open, LocalBgServer.remove, py_save_png,
      py_b64encode, print.
    run_all; other_return.
  - run. split; [reflexivity|].
    intros _. unfold LocalBgServer.returned_status. now rewrite result_after.
Qed.

(** X15.  The local mirror returns status 200 with a JSON body only when
    everything succeeded: the body is a JSON object whose ['imageData']
    is a string, the stripped payload decodes, the bytes open as an
    image, the capability returns and its output saves as PNG; and the
    body carries that PNG. *)
Theorem mirror_success_means_processed remove req data :
  command req = "POST" ->
  LocalBgServer.flask_reply (LocalBgServer.remove_background remove req) 200 data ->
  exists m s image_bytes img out png,
    get_json req = inr (JObj m) /\
    m !! "imageData" = Some (JStr s) /\
    b64decode (data_part s) = inr image_bytes /\
    Image_open image_bytes = inr img /\
    remove img = inr out /\
    save_png out = inr png /\
    field "processedImageData" data
    = Some (JStr ("data:image/png;base64," +:+ b64encode png)).
Proof.
  intros Hpost. unfold LocalBgServer.remove_background.
  rewrite Hpost. cbn [String.eqb Ascii.eqb Bool.eqb]. unfold print.
  destruct (get_json req) as [e|posted] eqn:Hbody; run; [other_return|].
  destruct (py_not_in "imageData" posted) as [e|[|]] eqn:Hin; run;
    [other_return|other_return|].
  destruct (py_getitem posted "imageData") as [e|v] eqn:Hget; run;
    [other_return|].
  apply py_getitem_inr in Hget. destruct Hget as (m & -> & Hm).
  unfold py_b64decode, py_Image_open, LocalBgServer.remove, py_save_png,
    py_b64encode, print.
  destruct v as [ |b|i|q|s|l|m'];
    try (cbn [py_in py_split type_name]; run_all; other_return).
  rewrite strip_prefix_str.
  destruct (b64decode (data_part s)) as [e|image_bytes] eqn:Hdec; run;
    [other_return|].
  destruct (Image_open image_bytes) as [e|img] eqn:Hopen; run; [other_return|].
  destruct (remove img) as [e|out] eqn:Hrem; run; [other_return|].
  destruct (save_png out) as [e|png] eqn:Hsave; run; [other_return|].
  unfold LocalBgServer.flask_reply. rewrite result_after.
  intros (r & Hr & _ & Hdata). cbn in Hr. injection Hr as <-.
  cbn in Hdata. injection Hdata as <-.
  exists m, s, image_bytes, img, out, png.
  repeat split; try assumption; reflexivity.
Qed.
End Further.

(** ** The two servers, and two requests, side by side *)

Section TwoRuns.
Context {image : Type} (run1 run2 : PyLibs image).
Implicit Types (req : request).






End TwoRuns.

(** ** The further properties on concrete requests *)

(** X5 on a POST with an empty body: [json.loads] refuses it in the
    serverless handler, and the JSON view refuses it in the mirror. *)
Lemma unreadable_body_witness :
  serverless_reply (RemoveBg.do_POST (Some Fixture.cut) Fixture.empty_request) 500
    (dict [("success", JBool false);
           ("error",
            JStr "Processing failed: Expecting value: line 1 column 1 (char 0)")]) /\
  LocalBgServer.flask_reply
    (LocalBgServer.remove_background Fixture.cut Fixture.empty_request) 500
    (dict [("success", JBool false);
           ("error", JStr "Processing failed: 400 Bad Request")]).
Proof.
  split.
  - apply (unreadable_body_is_500 Fixture.cut Fixture.empty_request
             (Exn "JSONDecodeError" "Expecting value: line 1 column 1 (char 0)"));
      vm_compute; reflexivity.
  - apply (unreadable_body_is_500 Fixture.cut Fixture.empty_request
             (Exn "BadRequest" "400 Bad Request"));
      vm_compute; reflexivity.
Defined.

(** X6 on the PNG request with a capability that raises. *)
Lemma failing_capability_witness :
  serverless_reply (RemoveBg.do_POST (Some Fixture.broken) Fixture.png_request) 500
    (dict [("success", JBool false);
           ("error", JStr "Processing failed: inference session failed")]) /\
  LocalBgServer.flask_reply
    (LocalBgServer.remove_background Fixture.broken Fixture.png_request) 500
    (dict [("success", JBool false);
           ("error", JStr "Processing failed: inference session failed")]).
Proof.
  destruct (failing_capability_is_500 Fixture.broken Fixture.png_request
              Fixture.png_fields Fixture.png_payload Fixture.png_signature
              (Fixture.Decoded Fixture.png_signature)
              (Exn "RuntimeError" "inference session failed"))
    as [Hserverless Hlocal];
    try (vm_compute; reflexivity).
  { left. reflexivity. }
  split; [apply Hserverless|apply Hlocal]; vm_compute; reflexivity.
Defined.

(** X7 on the PNG request: its answer 200 comes with the whole chain. *)
Lemma success_means_processed_witness :
  exists remove m s image_bytes img out png,
    Some Fixture.cut = Some remove /\
    result (read_json_body Fixture.png_request) = inr (JObj m) /\
    m !! "imageData" = Some (JStr s) /\
    b64decode (data_part s) = inr image_bytes /\
    Image_open image_bytes = inr img /\
    remove img = inr out /\
    save_png out = inr png /\
    field "processedImageData"
      (dict [("success", JBool true);
             ("processedImageData", JStr "data:image/png;base64,iVBORw0KGgo=");
             ("message", JStr "Background removed successfully")])
    = Some (JStr ("data:image/png;base64," +:+ b64encode png)).
Proof.
  apply (success_means_processed (Some Fixture.cut) Fixture.png_request).
  split; vm_compute; reflexivity.
Defined.

(** X8 on the body [{}]. *)
Lemma bad_request_iff_absent_witness :
  status_of (trace (RemoveBg.do_POST (Some Fixture.cut) Fixture.empty_object_request))
  = Some 400
  <-> py_in "imageData" (dict []) = inr false.
Proof.
  apply (bad_request_iff_absent Fixture.cut Fixture.empty_object_request (dict [])).
  vm_compute. reflexivity.
Defined.

(** X14 on the body [{}]. *)
Lemma mirror_bad_request_witness :
  LocalBgServer.returned_status
    (LocalBgServer.remove_background Fixture.cut Fixture.empty_object_request)
  = Some 400
  <-> py_in "imageData" (dict []) = inr false.
Proof.
  apply (mirror_bad_request_iff_absent Fixture.cut Fixture.empty_object_request
           (dict []));
    vm_compute; reflexivity.
Defined.

(** X15 on the PNG request. *)
Lemma mirror_success_witness :
  exists m s image_bytes img out png,
    get_json Fixture.png_request = inr (JObj m) /\
    m !! "imageData" = Some (JStr s) /\
    b64decode (data_part s) = inr image_bytes /\
    Image_open image_bytes = inr img /\
    Fixture.cut img = inr out /\
    save_png out = inr png /\
    field "processedImageData"
      (dict [("success", JBool true);
             ("processedImageData", JStr "data:image/png;base64,iVBORw0KGgo=");
             ("message", JStr "Background removed successfully")])
    = Some (JStr ("data:image/png;base64," +:+ b64encode png)).
Proof.
  apply (mirror_success_means_processed Fixture.cut Fixture.png_request).
  - reflexivity.
  - eexists. split; [vm_compute; reflexivity|]. split; reflexivity.
Defined.

(** ** Two runs on concrete requests *)




